(* Shallow embedding of crates/hyperdrive-math/src/short/fees.rs:
   the four fee functions of a short position, over the 18-decimal
   fixed-point type and a read-only AMM-state snapshot. *)

From Stdlib Require Import ZArith Lia.
Open Scope Z_scope.

(* ------------------------------------------------------------------ *)
(** * Fixed-point arithmetic *)

(** The failures of the arithmetic primitives. *)
Inductive Error : Type :=
| Overflow
| Underflow
| DivisionByZero.

(** Result of a checked computation: a value or an arithmetic failure. *)
Inductive Result (A : Type) : Type :=
| Ok (a : A)
| Err (e : Error).
Arguments Ok {A} a.
Arguments Err {A} e.

Definition bind {A B : Type} (r : Result A) (k : A -> Result B) : Result B :=
  match r with
  | Ok a => k a
  | Err e => Err e
  end.

Notation "x <- c ;; k" := (bind c (fun x => k))
  (at level 61, c at next level, right associativity).

(** Upper bound (exclusive) of a U256 value. *)
Definition U256_LIMIT : Z := 2 ^ 256.

Definition in_u256 (x : Z) : bool := (0 <=? x) && (x <? U256_LIMIT).

(** [fixed!(1e18)]: the fixed-point one. *)
Definition ONE : Z := 10 ^ 18.

(** Modelled from the spec: the fixed-point subtraction of the
    [fixed_point] crate (256-bit unsigned, failing with [Underflow] when
    the result would go negative). *)
Definition sub (a b : Z) : Result Z :=
  if a <? b then Err Underflow else Ok (a - b).

(** Modelled from the spec: [FixedPoint::mul_div_down] of the
    [fixed_point] crate: multiply, then divide rounding toward zero, without
    intermediate overflow; [DivisionByZero] on a zero divisor and
    [Overflow] when the result leaves the 256-bit range. *)
Definition mul_div_down (x y d : Z) : Result Z :=
  if d =? 0 then Err DivisionByZero
  else let q := x * y / d in
       if q <? U256_LIMIT then Ok q else Err Overflow.

(** Modelled from the spec: the fixed-point product [a * b] of the
    [fixed_point] crate, [mul_div_down a b 1e18]. *)
Definition mul (a b : Z) : Result Z := mul_div_down a b ONE.

(* ------------------------------------------------------------------ *)
(** * The AMM-state snapshot *)

(** Modelled from the spec: the accessors of [crate::State] used by the
    fee functions ([curve_fee], [governance_lp_fee], [flat_fee],
    [vault_share_price], [get_spot_price]) are read-only scalars of the
    snapshot; [position_duration] is the term used by the time-remaining
    helper below. *)
Record State : Type := mkState {
  curve_fee : Z;
  governance_lp_fee : Z;
  flat_fee : Z;
  vault_share_price : Z;
  spot_price : Z;
  position_duration : Z
}.

Definition get_spot_price (st : State) : Z := spot_price st.

(** Every field of the snapshot is a U256. *)
Definition state_wf (st : State) : bool :=
  in_u256 (curve_fee st) && in_u256 (governance_lp_fee st)
  && in_u256 (flat_fee st) && in_u256 (vault_share_price st)
  && in_u256 (spot_price st) && in_u256 (position_duration st).

(** Modelled from the spec: [State::calculate_normalized_time_remaining]
    (not part of the embedded file): the fraction of the term left, floored
    at 0 once [current_time >= maturity_time], capped at 1 when
    [current_time] is at or before the open time
    [maturity_time - position_duration], and otherwise
    [(maturity_time - current_time) / position_duration] rounded down. *)
Definition calculate_normalized_time_remaining
    (st : State) (maturity_time current_time : Z) : Z :=
  if maturity_time <=? current_time then 0
  else if current_time + position_duration st <=? maturity_time then ONE
  else (maturity_time - current_time) * ONE / position_duration st.

(* ------------------------------------------------------------------ *)
(** * short/fees.rs *)

(** [self.curve_fee() * (fixed!(1e18) - spot_price) * short_amount] *)
Definition open_short_curve_fee (st : State) (short_amount spot_price : Z)
  : Result Z :=
  d <- sub ONE spot_price ;;
  x <- mul (curve_fee st) d ;;
  mul x short_amount.

(** [self.governance_lp_fee() * self.open_short_curve_fee(short_amount, spot_price)] *)
Definition open_short_governance_fee (st : State) (short_amount spot_price : Z)
  : Result Z :=
  c <- open_short_curve_fee st short_amount spot_price ;;
  mul (governance_lp_fee st) c.

(** [self.curve_fee() * (fixed!(1e18) - self.get_spot_price())
      * bond_amount.mul_div_down(normalized_time_remaining, self.vault_share_price())] *)
Definition close_short_curve_fee (st : State) (bond_amount maturity_time current_time : Z)
  : Result Z :=
  let normalized_time_remaining :=
    calculate_normalized_time_remaining st maturity_time current_time in
  d <- sub ONE (get_spot_price st) ;;
  x <- mul (curve_fee st) d ;;
  y <- mul_div_down bond_amount normalized_time_remaining (vault_share_price st) ;;
  mul x y.

(** [bond_amount.mul_div_down(fixed!(1e18) - normalized_time_remaining,
      self.vault_share_price()) * self.flat_fee()] *)
Definition close_short_flat_fee (st : State) (bond_amount maturity_time current_time : Z)
  : Result Z :=
  let normalized_time_remaining :=
    calculate_normalized_time_remaining st maturity_time current_time in
  e <- sub ONE normalized_time_remaining ;;
  y <- mul_div_down bond_amount e (vault_share_price st) ;;
  mul y (flat_fee st).

(* ------------------------------------------------------------------ *)
(** * Sample snapshot *)

Definition sample_state : State :=
  {| curve_fee := 10 ^ 16; governance_lp_fee := 10 ^ 17; flat_fee := 5 * 10 ^ 14;
     vault_share_price := 10 ^ 18; spot_price := 95 * 10 ^ 16;
     position_duration := 31536000 |}.

Example sample_open_curve :
  open_short_curve_fee sample_state (1000 * 10 ^ 18) (95 * 10 ^ 16) = Ok (5 * 10 ^ 17).
Proof. reflexivity. Qed.

Example sample_open_gov :
  open_short_governance_fee sample_state (1000 * 10 ^ 18) (95 * 10 ^ 16) = Ok (5 * 10 ^ 16).
Proof. reflexivity. Qed.

(* ------------------------------------------------------------------ *)
(** * Lemmas on the primitives *)

Lemma ONE_pos : 0 < ONE.
Proof. unfold ONE. lia. Qed.

Lemma ONE_eqb_0 : (ONE =? 0) = false.
Proof. reflexivity. Qed.

Lemma sub_ok (a b : Z) : b <= a -> sub a b = Ok (a - b).
Proof. intro H. unfold sub. destruct (Z.ltb_spec a b); [lia | reflexivity]. Qed.

Lemma mul_div_down_ok (x y d : Z) :
  d <> 0 -> x * y / d < U256_LIMIT -> mul_div_down x y d = Ok (x * y / d).
Proof.
  intros Hd Hq. unfold mul_div_down.
  destruct (Z.eqb_spec d 0); [contradiction |].
  destruct (Z.ltb_spec (x * y / d) U256_LIMIT); [reflexivity | lia].
Qed.

Lemma mul_ok (a b : Z) : a * b / ONE < U256_LIMIT -> mul a b = Ok (a * b / ONE).
Proof. intro H. apply mul_div_down_ok; [pose proof ONE_pos; lia | exact H]. Qed.

Lemma mul_div_down_zero_l (y d : Z) : d <> 0 -> mul_div_down 0 y d = Ok 0.
Proof.
  intro Hd. unfold mul_div_down. destruct (Z.eqb_spec d 0); [contradiction |].
  rewrite Z.mul_0_l, Z.div_0_l by exact Hd. reflexivity.
Qed.

Lemma mul_div_down_zero_r (x d : Z) : d <> 0 -> mul_div_down x 0 d = Ok 0.
Proof.
  intro Hd. unfold mul_div_down. destruct (Z.eqb_spec d 0); [contradiction |].
  rewrite Z.mul_0_r, Z.div_0_l by exact Hd. reflexivity.
Qed.

Lemma mul_zero_l (b : Z) : mul 0 b = Ok 0.
Proof. apply mul_div_down_zero_l. pose proof ONE_pos. lia. Qed.

Lemma mul_zero_r (a : Z) : mul a 0 = Ok 0.
Proof. apply mul_div_down_zero_r. pose proof ONE_pos. lia. Qed.

Lemma mul_div_down_ok_inv (x y d r : Z) :
  mul_div_down x y d = Ok r -> d <> 0 /\ r = x * y / d /\ r < U256_LIMIT.
Proof.
  unfold mul_div_down. destruct (Z.eqb_spec d 0); [discriminate |].
  destruct (Z.ltb_spec (x * y / d) U256_LIMIT); intro Hr; inversion Hr; auto.
Qed.

Lemma sub_ok_inv (a b r : Z) : sub a b = Ok r -> b <= a /\ r = a - b.
Proof. unfold sub. destruct (Z.ltb_spec a b); intro Hr; inversion Hr; lia. Qed.

Lemma bind_ok {A B : Type} (c : Result A) (k : A -> Result B) (r : B) :
  (x <- c ;; k x) = Ok r -> exists a, c = Ok a /\ k a = Ok r.
Proof. destruct c as [a | e]; cbn; [eauto | discriminate]. Qed.

(** The time-remaining fraction lies in [0, 1]. *)
Lemma calculate_normalized_time_remaining_range (st : State) (m t : Z) :
  0 <= calculate_normalized_time_remaining st m t <= ONE.
Proof.
  unfold calculate_normalized_time_remaining.
  destruct (Z.leb_spec m t); [pose proof ONE_pos; lia |].
  destruct (Z.leb_spec (t + position_duration st) m); [pose proof ONE_pos; lia |].
  pose proof ONE_pos. split.
  - apply Z.div_pos; nia.
  - apply Z.div_le_upper_bound; nia.
Qed.

Lemma calculate_normalized_time_remaining_at_maturity (st : State) (m : Z) :
  calculate_normalized_time_remaining st m m = 0.
Proof. unfold calculate_normalized_time_remaining. rewrite Z.leb_refl. reflexivity. Qed.

Lemma state_wf_spec (st : State) :
  state_wf st = true ->
  0 <= curve_fee st < U256_LIMIT /\ 0 <= governance_lp_fee st < U256_LIMIT
  /\ 0 <= flat_fee st < U256_LIMIT /\ 0 <= vault_share_price st < U256_LIMIT
  /\ 0 <= spot_price st < U256_LIMIT /\ 0 <= position_duration st < U256_LIMIT.
Proof.
  unfold state_wf, in_u256. intro H.
  repeat rewrite Bool.andb_true_iff in H.
  repeat rewrite Z.leb_le in H. repeat rewrite Z.ltb_lt in H.
  tauto.
Qed.

(** A fixed-point fraction of at most one does not push a U256 out of range. *)
Lemma frac_mul_bound (c f : Z) :
  0 <= c < U256_LIMIT -> 0 <= f <= ONE -> 0 <= c * f / ONE < U256_LIMIT.
Proof.
  intros Hc Hf. pose proof ONE_pos. split.
  - apply Z.div_pos; nia.
  - apply Z.div_lt_upper_bound; nia.
Qed.

(* ------------------------------------------------------------------ *)
(** * Claims *)

(** C1: when [spot_price <= 1e18] and neither fixed-point product
    overflows, [open_short_curve_fee] is [curve_fee * (1 - spot_price)]
    then [* short_amount], each product floored to 18 decimals; with
    [curve_fee = 0.01e18], [spot_price = 0.95e18] and
    [short_amount = 1000e18] it is exactly [0.5e18]. *)
Theorem open_short_curve_fee_formula (st : State) (short_amount spot_price : Z) :
  spot_price <= ONE ->
  curve_fee st * (ONE - spot_price) / ONE < U256_LIMIT ->
  curve_fee st * (ONE - spot_price) / ONE * short_amount / ONE < U256_LIMIT ->
  open_short_curve_fee st short_amount spot_price
    = Ok (curve_fee st * (ONE - spot_price) / ONE * short_amount / ONE)
  /\ (curve_fee st = 10 ^ 16 ->
      open_short_curve_fee st (1000 * 10 ^ 18) (95 * 10 ^ 16) = Ok (5 * 10 ^ 17)).
Proof.
  intros Hp H1 H2. split.
  - unfold open_short_curve_fee.
    rewrite (sub_ok ONE spot_price Hp). cbn [bind].
    rewrite (mul_ok _ _ H1). cbn [bind].
    exact (mul_ok _ _ H2).
  - intro Hc. unfold open_short_curve_fee. rewrite Hc. reflexivity.
Qed.

Lemma open_short_curve_fee_formula_witness :
  (95 * 10 ^ 16 <= ONE
   /\ curve_fee sample_state * (ONE - 95 * 10 ^ 16) / ONE < U256_LIMIT
   /\ curve_fee sample_state * (ONE - 95 * 10 ^ 16) / ONE * (1000 * 10 ^ 18) / ONE
        < U256_LIMIT)
  /\ open_short_curve_fee sample_state (1000 * 10 ^ 18) (95 * 10 ^ 16) = Ok (5 * 10 ^ 17).
Proof.
  assert (Hp : 95 * 10 ^ 16 <= ONE) by (unfold ONE; lia).
  assert (H1 : curve_fee sample_state * (ONE - 95 * 10 ^ 16) / ONE < U256_LIMIT)
    by (vm_compute; reflexivity).
  assert (H2 : curve_fee sample_state * (ONE - 95 * 10 ^ 16) / ONE * (1000 * 10 ^ 18) / ONE
                 < U256_LIMIT) by (vm_compute; reflexivity).
  split; [exact (conj Hp (conj H1 H2)) |].
  exact (proj2 (open_short_curve_fee_formula sample_state (1000 * 10 ^ 18) (95 * 10 ^ 16)
                  Hp H1 H2) eq_refl).
Defined.

(** C2: when the snapshot's spot price is at most 1e18, the vault share
    price is non-zero and no step overflows, [close_short_curve_fee] is
    [curve_fee * (1 - get_spot_price())] times
    [mul_div_down(bond_amount, time_remaining, vault_share_price())], the
    spot price being the snapshot's, with no spot-price argument. *)
Theorem close_short_curve_fee_formula (st : State) (bond_amount maturity_time current_time : Z) :
  get_spot_price st <= ONE ->
  vault_share_price st <> 0 ->
  curve_fee st * (ONE - get_spot_price st) / ONE < U256_LIMIT ->
  bond_amount * calculate_normalized_time_remaining st maturity_time current_time
    / vault_share_price st < U256_LIMIT ->
  curve_fee st * (ONE - get_spot_price st) / ONE
    * (bond_amount * calculate_normalized_time_remaining st maturity_time current_time
         / vault_share_price st) / ONE < U256_LIMIT ->
  close_short_curve_fee st bond_amount maturity_time current_time
    = Ok (curve_fee st * (ONE - get_spot_price st) / ONE
          * (bond_amount * calculate_normalized_time_remaining st maturity_time current_time
               / vault_share_price st) / ONE).
Proof.
  intros Hp Hv H1 H2 H3. unfold close_short_curve_fee.
  rewrite (sub_ok _ _ Hp). cbn [bind].
  rewrite (mul_ok _ _ H1). cbn [bind].
  rewrite (mul_div_down_ok _ _ _ Hv H2). cbn [bind].
  exact (mul_ok _ _ H3).
Qed.

Lemma close_short_curve_fee_formula_witness :
  close_short_curve_fee sample_state (100 * 10 ^ 18) 31536000 15768000 = Ok (25 * 10 ^ 15).
Proof.
  refine (eq_trans (close_short_curve_fee_formula sample_state (100 * 10 ^ 18)
                      31536000 15768000 _ _ _ _ _) _);
    vm_compute; first [reflexivity | discriminate].
Defined.

(** C3: when the vault share price is non-zero, the time remaining is at
    most 1e18 and no step overflows, [close_short_flat_fee] is
    [mul_div_down(bond_amount, 1 - time_remaining, vault_share_price())]
    times [flat_fee], with the time remaining from the same
    [calculate_normalized_time_remaining] call as [close_short_curve_fee]. *)
Theorem close_short_flat_fee_formula (st : State) (bond_amount maturity_time current_time : Z) :
  vault_share_price st <> 0 ->
  calculate_normalized_time_remaining st maturity_time current_time <= ONE ->
  bond_amount * (ONE - calculate_normalized_time_remaining st maturity_time current_time)
    / vault_share_price st < U256_LIMIT ->
  bond_amount * (ONE - calculate_normalized_time_remaining st maturity_time current_time)
    / vault_share_price st * flat_fee st / ONE < U256_LIMIT ->
  close_short_flat_fee st bond_amount maturity_time current_time
    = Ok (bond_amount * (ONE - calculate_normalized_time_remaining st maturity_time current_time)
            / vault_share_price st * flat_fee st / ONE).
Proof.
  intros Hv Ht H1 H2. unfold close_short_flat_fee.
  rewrite (sub_ok _ _ Ht). cbn [bind].
  rewrite (mul_div_down_ok _ _ _ Hv H1). cbn [bind].
  exact (mul_ok _ _ H2).
Qed.

Lemma close_short_flat_fee_formula_witness :
  close_short_flat_fee sample_state (100 * 10 ^ 18) 31536000 15768000 = Ok (25 * 10 ^ 15).
Proof.
  refine (eq_trans (close_short_flat_fee_formula sample_state (100 * 10 ^ 18)
                      31536000 15768000 _ _ _ _) _);
    vm_compute; first [reflexivity | discriminate].
Defined.

(** C4: [open_short_governance_fee] is [governance_lp_fee] times the result
    of a call to [open_short_curve_fee]; when that call yields [c] and the
    product does not overflow, the fee is [governance_lp_fee * c] floored to
    18 decimals; with [governance_lp_fee = 0.1e18], [curve_fee = 0.01e18],
    [spot_price = 0.95e18] and [short_amount = 1000e18] it is [0.05e18]. *)
Theorem open_short_governance_fee_formula (st : State) (short_amount spot_price c : Z) :
  open_short_curve_fee st short_amount spot_price = Ok c ->
  governance_lp_fee st * c / ONE < U256_LIMIT ->
  open_short_governance_fee st short_amount spot_price
    = (x <- open_short_curve_fee st short_amount spot_price ;; mul (governance_lp_fee st) x)
  /\ open_short_governance_fee st short_amount spot_price = Ok (governance_lp_fee st * c / ONE)
  /\ (curve_fee st = 10 ^ 16 -> governance_lp_fee st = 10 ^ 17 ->
      open_short_governance_fee st (1000 * 10 ^ 18) (95 * 10 ^ 16) = Ok (5 * 10 ^ 16)).
Proof.
  intros Hc Hg. split; [reflexivity | split].
  - unfold open_short_governance_fee. rewrite Hc. cbn [bind]. exact (mul_ok _ _ Hg).
  - intros Hcf Hgf. unfold open_short_governance_fee, open_short_curve_fee.
    rewrite Hcf, Hgf. reflexivity.
Qed.

Lemma open_short_governance_fee_formula_witness :
  open_short_governance_fee sample_state (1000 * 10 ^ 18) (95 * 10 ^ 16) = Ok (5 * 10 ^ 16).
Proof.
  exact (proj2 (proj2 (open_short_governance_fee_formula sample_state (1000 * 10 ^ 18)
                         (95 * 10 ^ 16) (5 * 10 ^ 17) eq_refl
                         ltac:(vm_compute; reflexivity))) eq_refl eq_refl).
Defined.

(** Monotonicity and sign of [mul_div_down] in its first two arguments. *)
Lemma mul_div_down_nonneg (x y d r : Z) :
  0 <= x -> 0 <= y -> 0 <= d -> mul_div_down x y d = Ok r -> 0 <= r.
Proof.
  intros Hx Hy Hd H. apply mul_div_down_ok_inv in H as (Hd0 & -> & _).
  apply Z.div_pos; nia.
Qed.

Lemma mul_div_down_mono_l (x x' y d r r' : Z) :
  0 <= x <= x' -> 0 <= y -> 0 <= d ->
  mul_div_down x y d = Ok r -> mul_div_down x' y d = Ok r' -> r <= r'.
Proof.
  intros Hx Hy Hd H H'.
  apply mul_div_down_ok_inv in H as (Hd0 & -> & _).
  apply mul_div_down_ok_inv in H' as (_ & -> & _).
  apply Z.div_le_mono; nia.
Qed.

Lemma mul_div_down_mono_r (x y y' d r r' : Z) :
  0 <= x -> 0 <= y <= y' -> 0 <= d ->
  mul_div_down x y d = Ok r -> mul_div_down x y' d = Ok r' -> r <= r'.
Proof.
  intros Hx Hy Hd H H'.
  apply mul_div_down_ok_inv in H as (Hd0 & -> & _).
  apply mul_div_down_ok_inv in H' as (_ & -> & _).
  apply Z.div_le_mono; nia.
Qed.

(** C5: with [governance_lp_fee] in [0, 1e18], whenever both fees are
    computed, the governance fee of opening a short is at most its curve
    fee. *)
Theorem open_short_governance_fee_le_curve_fee
    (st : State) (short_amount spot_price g c : Z) :
  state_wf st = true ->
  0 <= governance_lp_fee st <= ONE ->
  in_u256 short_amount = true ->
  open_short_curve_fee st short_amount spot_price = Ok c ->
  open_short_governance_fee st short_amount spot_price = Ok g ->
  g <= c.
Proof.
  intros Hwf Hgov Ha Hc Hg.
  apply state_wf_spec in Hwf as (Hcf & _).
  unfold in_u256 in Ha. apply Bool.andb_true_iff in Ha as [Ha _].
  apply Z.leb_le in Ha.
  pose proof ONE_pos.
  assert (Hc0 : 0 <= c).
  { unfold open_short_curve_fee in Hc.
    apply bind_ok in Hc as (d & Hd & Hc). apply sub_ok_inv in Hd as (Hd & ->).
    apply bind_ok in Hc as (x & Hx & Hc).
    apply (mul_div_down_nonneg x short_amount ONE); try lia; [| exact Hc].
    apply (mul_div_down_nonneg (curve_fee st) (ONE - spot_price) ONE); try lia; exact Hx. }
  unfold open_short_governance_fee in Hg. rewrite Hc in Hg. cbn [bind] in Hg.
  apply mul_div_down_ok_inv in Hg as (_ & -> & _).
  apply Z.div_le_upper_bound; nia.
Qed.

Lemma open_short_governance_fee_le_curve_fee_witness :
  5 * 10 ^ 16 <= 5 * 10 ^ 17.
Proof.
  apply (open_short_governance_fee_le_curve_fee sample_state (1000 * 10 ^ 18) (95 * 10 ^ 16));
    vm_compute; first [reflexivity | split; discriminate].
Defined.

(** C7: for a fixed snapshot, maturity time and current time, both
    close-side fees are non-decreasing in the bond amount, whenever both
    evaluations succeed. *)
Theorem close_short_fees_monotone
    (st : State) (maturity_time current_time b b' : Z) :
  state_wf st = true ->
  0 <= b <= b' ->
  (forall r r',
     close_short_curve_fee st b maturity_time current_time = Ok r ->
     close_short_curve_fee st b' maturity_time current_time = Ok r' -> r <= r')
  /\ (forall r r',
     close_short_flat_fee st b maturity_time current_time = Ok r ->
     close_short_flat_fee st b' maturity_time current_time = Ok r' -> r <= r').
Proof.
  intros Hwf Hb.
  apply state_wf_spec in Hwf as (Hcf & _ & Hff & Hvsp & _).
  pose proof (calculate_normalized_time_remaining_range st maturity_time current_time) as Ht.
  set (tr := calculate_normalized_time_remaining st maturity_time current_time) in *.
  pose proof ONE_pos as Hone.
  split; intros r r' H H'.
  - unfold close_short_curve_fee in H, H'. fold tr in H, H'.
    apply bind_ok in H as (d & Hd & H). apply bind_ok in H' as (d' & Hd' & H').
    rewrite Hd in Hd'. injection Hd' as <-.
    apply sub_ok_inv in Hd as (Hd & ->).
    apply bind_ok in H as (x & Hx & H). apply bind_ok in H' as (x' & Hx' & H').
    rewrite Hx in Hx'. injection Hx' as <-.
    assert (0 <= x) by (eapply mul_div_down_nonneg; [| | | exact Hx]; lia).
    apply bind_ok in H as (y & Hy & H). apply bind_ok in H' as (y' & Hy' & H').
    assert (0 <= y) by (eapply mul_div_down_nonneg; [| | | exact Hy]; lia).
    assert (y <= y') by (eapply mul_div_down_mono_l; [exact Hb | | | exact Hy | exact Hy']; lia).
    apply (mul_div_down_mono_r x y y' ONE); auto; lia.
  - unfold close_short_flat_fee in H, H'. fold tr in H, H'.
    apply bind_ok in H as (e & He & H). apply bind_ok in H' as (e' & He' & H').
    rewrite He in He'. injection He' as <-.
    apply sub_ok_inv in He as (He & ->).
    apply bind_ok in H as (y & Hy & H). apply bind_ok in H' as (y' & Hy' & H').
    assert (0 <= y) by (eapply mul_div_down_nonneg; [| | | exact Hy]; lia).
    assert (y <= y') by (eapply mul_div_down_mono_l; [exact Hb | | | exact Hy | exact Hy']; lia).
    apply (mul_div_down_mono_l y y' (flat_fee st) ONE); auto; lia.
Qed.

Lemma close_short_fees_monotone_witness :
  25 * 10 ^ 15 <= 5 * 10 ^ 16.
Proof.
  apply (proj1 (close_short_fees_monotone sample_state 31536000 15768000
                  (100 * 10 ^ 18) (200 * 10 ^ 18) eq_refl ltac:(lia)));
    vm_compute; reflexivity.
Defined.

(** The first product of the close-side curve fee succeeds when the
    snapshot's spot price is at most one. *)
Lemma close_curve_fee_prefix_ok (st : State) :
  state_wf st = true -> get_spot_price st <= ONE ->
  exists x, sub ONE (get_spot_price st) = Ok (ONE - get_spot_price st)
            /\ mul (curve_fee st) (ONE - get_spot_price st) = Ok x.
Proof.
  intros Hwf Hp. pose proof (state_wf_spec st Hwf) as (Hcf & _ & _ & _ & Hsp & _).
  exists (curve_fee st * (ONE - get_spot_price st) / ONE). split.
  - apply sub_ok. exact Hp.
  - apply mul_ok. apply frac_mul_bound; [exact Hcf |]. unfold get_spot_price in *. lia.
Qed.

(** C8: with a non-zero vault share price and a spot price of at most
    1e18, whenever the time remaining is 0 (in particular at
    [current_time = maturity_time]) the close curve fee is 0 and the close
    flat fee is [mul_div_down(bond_amount, 1e18, vault_share_price()) * flat_fee]. *)
Theorem close_short_fees_at_zero_time_remaining
    (st : State) (bond_amount maturity_time current_time : Z) :
  state_wf st = true ->
  vault_share_price st <> 0 ->
  get_spot_price st <= ONE ->
  (calculate_normalized_time_remaining st maturity_time current_time = 0 ->
   close_short_curve_fee st bond_amount maturity_time current_time = Ok 0
   /\ close_short_flat_fee st bond_amount maturity_time current_time
      = (y <- mul_div_down bond_amount ONE (vault_share_price st) ;; mul y (flat_fee st)))
  /\ close_short_curve_fee st bond_amount maturity_time maturity_time = Ok 0
  /\ close_short_flat_fee st bond_amount maturity_time maturity_time
     = (y <- mul_div_down bond_amount ONE (vault_share_price st) ;; mul y (flat_fee st)).
Proof.
  intros Hwf Hv Hp.
  destruct (close_curve_fee_prefix_ok st Hwf Hp) as (x & Hd & Hx).
  assert (Hgen : forall t,
    calculate_normalized_time_remaining st maturity_time t = 0 ->
    close_short_curve_fee st bond_amount maturity_time t = Ok 0
    /\ close_short_flat_fee st bond_amount maturity_time t
       = (y <- mul_div_down bond_amount ONE (vault_share_price st) ;; mul y (flat_fee st))).
  { intros t Ht. split.
    - unfold close_short_curve_fee. rewrite Ht, Hd. cbn [bind]. rewrite Hx. cbn [bind].
      rewrite (mul_div_down_zero_r _ _ Hv). cbn [bind]. apply mul_zero_r.
    - unfold close_short_flat_fee. rewrite Ht, (sub_ok ONE 0) by (pose proof ONE_pos; lia).
      cbn [bind]. rewrite Z.sub_0_r. reflexivity. }
  split; [apply Hgen |].
  apply Hgen, calculate_normalized_time_remaining_at_maturity.
Qed.

Lemma close_short_fees_at_zero_time_remaining_witness :
  close_short_curve_fee sample_state (100 * 10 ^ 18) 31536000 31536000 = Ok 0.
Proof.
  apply (proj2 (close_short_fees_at_zero_time_remaining sample_state (100 * 10 ^ 18)
                  31536000 31536000 eq_refl ltac:(discriminate)
                  ltac:(vm_compute; discriminate))).
Defined.

(** C9: with a non-zero vault share price, whenever the full term remains
    (time remaining 1e18), the close flat fee is 0. *)
Theorem close_short_flat_fee_at_full_time_remaining
    (st : State) (bond_amount maturity_time current_time : Z) :
  vault_share_price st <> 0 ->
  calculate_normalized_time_remaining st maturity_time current_time = ONE ->
  close_short_flat_fee st bond_amount maturity_time current_time = Ok 0.
Proof.
  intros Hv Ht. unfold close_short_flat_fee. rewrite Ht.
  rewrite (sub_ok ONE ONE) by lia. cbn [bind]. rewrite Z.sub_diag.
  rewrite (mul_div_down_zero_r _ _ Hv). cbn [bind]. apply mul_zero_l.
Qed.

Lemma close_short_flat_fee_at_full_time_remaining_witness :
  close_short_flat_fee sample_state (100 * 10 ^ 18) 31536000 0 = Ok 0.
Proof.
  apply close_short_flat_fee_at_full_time_remaining;
    vm_compute; first [reflexivity | discriminate].
Defined.

(** C10: a zero amount gives a zero fee: both open-side fees for any spot
    price of at most 1e18, and both close-side fees when the vault share
    price is non-zero and the snapshot's spot price is at most 1e18. *)
Theorem fees_of_zero_amount (st : State) (spot_price maturity_time current_time : Z) :
  state_wf st = true ->
  (0 <= spot_price <= ONE ->
   open_short_curve_fee st 0 spot_price = Ok 0
   /\ open_short_governance_fee st 0 spot_price = Ok 0)
  /\ (vault_share_price st <> 0 -> get_spot_price st <= ONE ->
   close_short_curve_fee st 0 maturity_time current_time = Ok 0
   /\ close_short_flat_fee st 0 maturity_time current_time = Ok 0).
Proof.
  intros Hwf. pose proof (state_wf_spec st Hwf) as (Hcf & _). split.
  - intros Hp.
    assert (Hc : open_short_curve_fee st 0 spot_price = Ok 0).
    { unfold open_short_curve_fee. rewrite (sub_ok ONE spot_price) by lia. cbn [bind].
      rewrite mul_ok by (apply frac_mul_bound; lia). cbn [bind]. apply mul_zero_r. }
    split; [exact Hc |].
    unfold open_short_governance_fee. rewrite Hc. cbn [bind]. apply mul_zero_r.
  - intros Hv Hp.
    destruct (close_curve_fee_prefix_ok st Hwf Hp) as (x & Hd & Hx). split.
    + unfold close_short_curve_fee. rewrite Hd. cbn [bind]. rewrite Hx. cbn [bind].
      rewrite (mul_div_down_zero_l _ _ Hv). cbn [bind]. apply mul_zero_r.
    + unfold close_short_flat_fee.
      pose proof (calculate_normalized_time_remaining_range st maturity_time current_time).
      rewrite sub_ok by lia. cbn [bind].
      rewrite (mul_div_down_zero_l _ _ Hv). cbn [bind]. apply mul_zero_l.
Qed.

Lemma fees_of_zero_amount_witness :
  open_short_curve_fee sample_state 0 (95 * 10 ^ 16) = Ok 0
  /\ close_short_flat_fee sample_state 0 31536000 15768000 = Ok 0.
Proof.
  pose proof (fees_of_zero_amount sample_state (95 * 10 ^ 16) 31536000 15768000 eq_refl)
    as [Hopen Hclose].
  split.
  - apply Hopen. vm_compute. split; discriminate.
  - apply Hclose; vm_compute; discriminate.
Defined.

(* ------------------------------------------------------------------ *)
(** * Failures *)

Lemma bind_err {A B : Type} (c : Result A) (k : A -> Result B) (e : Error) :
  (x <- c ;; k x) = Err e <-> c = Err e \/ exists a, c = Ok a /\ k a = Err e.
Proof.
  destruct c as [a | e']; cbn; split.
  - intro H. right. eauto.
  - intros [H | (a' & H & H')]; [discriminate | injection H as <-; exact H'].
  - intro H. left. injection H as ->. reflexivity.
  - intros [H | (a' & H & _)]; [injection H as ->; reflexivity | discriminate].
Qed.

Lemma mul_err (a b : Z) (e : Error) :
  mul a b = Err e <-> e = Overflow /\ U256_LIMIT <= a * b / ONE.
Proof.
  unfold mul, mul_div_down. rewrite ONE_eqb_0.
  destruct (Z.ltb_spec (a * b / ONE) U256_LIMIT) as [Hq | Hq]; split; intro H.
  - discriminate H.
  - lia.
  - injection H as <-. auto.
  - destruct H as [-> _]. reflexivity.
Qed.

(** Case analysis on every comparison of the primitives, outermost first. *)
Ltac split_prims :=
  repeat (match goal with
          | |- context [?a <? ?b] => destruct (Z.ltb_spec a b)
          | |- context [?a =? ?b] => destruct (Z.eqb_spec a b)
          end; cbn [bind]).

(** Choose the disjunct that holds in the current case. *)
Ltac pick :=
  match goal with
  | |- _ \/ _ => first [left; pick | right; pick]
  | |- _ /\ _ => split; pick
  | |- _ => first [reflexivity | assumption | lia]
  end.

Ltac settle_err :=
  let Hone := fresh "Hone" in
  let He := fresh "He" in
  pose proof ONE_pos as Hone;
  split; intro He;
  [ first [discriminate He | injection He as <-]; pick
  | decompose [and or] He; subst; first [reflexivity | exfalso; lia] ].

Lemma open_short_curve_fee_err (st : State) (a p : Z) (e : Error) :
  open_short_curve_fee st a p = Err e <->
  (e = Underflow /\ ONE < p)
  \/ (e = Overflow /\ p <= ONE
      /\ (U256_LIMIT <= curve_fee st * (ONE - p) / ONE
          \/ (curve_fee st * (ONE - p) / ONE < U256_LIMIT
              /\ U256_LIMIT <= curve_fee st * (ONE - p) / ONE * a / ONE))).
Proof.
  unfold open_short_curve_fee, sub, mul, mul_div_down. rewrite ONE_eqb_0.
  split_prims; settle_err.
Qed.

Lemma open_short_governance_fee_err (st : State) (a p : Z) (e : Error) :
  open_short_governance_fee st a p = Err e <->
  open_short_curve_fee st a p = Err e
  \/ (exists c, open_short_curve_fee st a p = Ok c /\ e = Overflow
                /\ U256_LIMIT <= governance_lp_fee st * c / ONE).
Proof.
  unfold open_short_governance_fee. rewrite bind_err.
  split; intros [H | (c & Hc & H)]; auto; right; exists c.
  - apply mul_err in H. tauto.
  - split; [exact Hc | apply mul_err; tauto].
Qed.

Lemma close_short_curve_fee_err (st : State) (b m t : Z) (e : Error) :
  close_short_curve_fee st b m t = Err e <->
  (e = Underflow /\ ONE < get_spot_price st)
  \/ (e = Overflow /\ get_spot_price st <= ONE
      /\ U256_LIMIT <= curve_fee st * (ONE - get_spot_price st) / ONE)
  \/ (e = DivisionByZero /\ get_spot_price st <= ONE
      /\ curve_fee st * (ONE - get_spot_price st) / ONE < U256_LIMIT
      /\ vault_share_price st = 0)
  \/ (e = Overflow /\ get_spot_price st <= ONE
      /\ curve_fee st * (ONE - get_spot_price st) / ONE < U256_LIMIT
      /\ vault_share_price st <> 0
      /\ (U256_LIMIT <= b * calculate_normalized_time_remaining st m t / vault_share_price st
          \/ (b * calculate_normalized_time_remaining st m t / vault_share_price st < U256_LIMIT
              /\ U256_LIMIT <= curve_fee st * (ONE - get_spot_price st) / ONE
                   * (b * calculate_normalized_time_remaining st m t / vault_share_price st)
                   / ONE))).
Proof.
  unfold close_short_curve_fee, sub, mul, mul_div_down. rewrite ONE_eqb_0.
  set (tr := calculate_normalized_time_remaining st m t).
  set (sp := get_spot_price st).
  split_prims; settle_err.
Qed.

Lemma close_short_flat_fee_err (st : State) (b m t : Z) (e : Error) :
  close_short_flat_fee st b m t = Err e <->
  (e = Underflow /\ ONE < calculate_normalized_time_remaining st m t)
  \/ (e = DivisionByZero /\ calculate_normalized_time_remaining st m t <= ONE
      /\ vault_share_price st = 0)
  \/ (e = Overflow /\ calculate_normalized_time_remaining st m t <= ONE
      /\ vault_share_price st <> 0
      /\ (U256_LIMIT <= b * (ONE - calculate_normalized_time_remaining st m t)
                          / vault_share_price st
          \/ (b * (ONE - calculate_normalized_time_remaining st m t) / vault_share_price st
                < U256_LIMIT
              /\ U256_LIMIT <= b * (ONE - calculate_normalized_time_remaining st m t)
                                 / vault_share_price st * flat_fee st / ONE))).
Proof.
  unfold close_short_flat_fee, sub, mul, mul_div_down. rewrite ONE_eqb_0.
  set (tr := calculate_normalized_time_remaining st m t).
  split_prims; settle_err.
Qed.

(** C6: the four fee functions have no failure of their own: each fails
    exactly when one of the arithmetic primitives it evaluates fails
    ([Underflow] of a [1 - _] subtraction, [DivisionByZero] of
    [mul_div_down] by a zero vault share price, [Overflow] of a product
    leaving the 256-bit range), and returns that failure unchanged; in
    particular the governance fee returns the curve fee's failure as is. *)
Theorem fee_failures_are_arithmetic (st : State) (a p b m t : Z) (e : Error) :
  (open_short_curve_fee st a p = Err e <->
     (e = Underflow /\ ONE < p)
     \/ (e = Overflow /\ p <= ONE
         /\ (U256_LIMIT <= curve_fee st * (ONE - p) / ONE
             \/ (curve_fee st * (ONE - p) / ONE < U256_LIMIT
                 /\ U256_LIMIT <= curve_fee st * (ONE - p) / ONE * a / ONE))))
  /\ (open_short_governance_fee st a p = Err e <->
      open_short_curve_fee st a p = Err e
      \/ (exists c, open_short_curve_fee st a p = Ok c /\ e = Overflow
                    /\ U256_LIMIT <= governance_lp_fee st * c / ONE))
  /\ (close_short_curve_fee st b m t = Err e <->
      (e = Underflow /\ ONE < get_spot_price st)
      \/ (e = Overflow /\ get_spot_price st <= ONE
          /\ U256_LIMIT <= curve_fee st * (ONE - get_spot_price st) / ONE)
      \/ (e = DivisionByZero /\ get_spot_price st <= ONE
          /\ curve_fee st * (ONE - get_spot_price st) / ONE < U256_LIMIT
          /\ vault_share_price st = 0)
      \/ (e = Overflow /\ get_spot_price st <= ONE
          /\ curve_fee st * (ONE - get_spot_price st) / ONE < U256_LIMIT
          /\ vault_share_price st <> 0
          /\ (U256_LIMIT <= b * calculate_normalized_time_remaining st m t / vault_share_price st
              \/ (b * calculate_normalized_time_remaining st m t / vault_share_price st
                    < U256_LIMIT
                  /\ U256_LIMIT <= curve_fee st * (ONE - get_spot_price st) / ONE
                       * (b * calculate_normalized_time_remaining st m t / vault_share_price st)
                       / ONE))))
  /\ (close_short_flat_fee st b m t = Err e <->
      (e = Underflow /\ ONE < calculate_normalized_time_remaining st m t)
      \/ (e = DivisionByZero /\ calculate_normalized_time_remaining st m t <= ONE
          /\ vault_share_price st = 0)
      \/ (e = Overflow /\ calculate_normalized_time_remaining st m t <= ONE
          /\ vault_share_price st <> 0
          /\ (U256_LIMIT <= b * (ONE - calculate_normalized_time_remaining st m t)
                              / vault_share_price st
              \/ (b * (ONE - calculate_normalized_time_remaining st m t) / vault_share_price st
                    < U256_LIMIT
                  /\ U256_LIMIT <= b * (ONE - calculate_normalized_time_remaining st m t)
                                     / vault_share_price st * flat_fee st / ONE)))).
Proof.
  split; [apply open_short_curve_fee_err |].
  split; [apply open_short_governance_fee_err |].
  split; [apply close_short_curve_fee_err | apply close_short_flat_fee_err].
Qed.

(** The failures of the sample snapshot: an out-of-range spot price
    underflows, a zero vault share price divides by zero. *)
Example sample_open_underflow :
  open_short_curve_fee sample_state (1000 * 10 ^ 18) (2 * 10 ^ 18) = Err Underflow.
Proof. reflexivity. Qed.

Example sample_close_division_by_zero :
  close_short_flat_fee {| curve_fee := 10 ^ 16; governance_lp_fee := 10 ^ 17;
                          flat_fee := 5 * 10 ^ 14; vault_share_price := 0;
                          spot_price := 95 * 10 ^ 16; position_duration := 31536000 |}
    (100 * 10 ^ 18) 31536000 15768000 = Err DivisionByZero.
Proof. reflexivity. Qed.

(* ------------------------------------------------------------------ *)
(** * Further properties of short/fees.rs *)

(** Shape of a successful result of each fee function. *)
Lemma open_short_curve_fee_ok_inv (st : State) (a p r : Z) :
  open_short_curve_fee st a p = Ok r ->
  p <= ONE /\ curve_fee st * (ONE - p) / ONE < U256_LIMIT
  /\ r = curve_fee st * (ONE - p) / ONE * a / ONE.
Proof.
  unfold open_short_curve_fee. intro H.
  apply bind_ok in H as (d & Hd & H). apply sub_ok_inv in Hd as (Hp & ->).
  apply bind_ok in H as (x & Hx & H).
  apply mul_div_down_ok_inv in Hx as (_ & -> & Hx).
  apply mul_div_down_ok_inv in H as (_ & -> & _). auto.
Qed.

Lemma close_short_curve_fee_ok_inv (st : State) (b m t r : Z) :
  close_short_curve_fee st b m t = Ok r ->
  get_spot_price st <= ONE /\ vault_share_price st <> 0
  /\ r = curve_fee st * (ONE - get_spot_price st) / ONE
         * (b * calculate_normalized_time_remaining st m t / vault_share_price st) / ONE.
Proof.
  unfold close_short_curve_fee. intro H.
  apply bind_ok in H as (d & Hd & H). apply sub_ok_inv in Hd as (Hp & ->).
  apply bind_ok in H as (x & Hx & H).
  apply mul_div_down_ok_inv in Hx as (_ & -> & _).
  apply bind_ok in H as (y & Hy & H).
  apply mul_div_down_ok_inv in Hy as (Hv & -> & _).
  apply mul_div_down_ok_inv in H as (_ & -> & _). auto.
Qed.

Lemma close_short_flat_fee_ok_inv (st : State) (b m t r : Z) :
  close_short_flat_fee st b m t = Ok r ->
  vault_share_price st <> 0
  /\ r = b * (ONE - calculate_normalized_time_remaining st m t) / vault_share_price st
         * flat_fee st / ONE.
Proof.
  unfold close_short_flat_fee. intro H.
  apply bind_ok in H as (e & He & H). apply sub_ok_inv in He as (_ & ->).
  apply bind_ok in H as (y & Hy & H).
  apply mul_div_down_ok_inv in Hy as (Hv & -> & _).
  apply mul_div_down_ok_inv in H as (_ & -> & _). auto.
Qed.

(** Floor division by a positive divisor never rounds up. *)
Lemma floor_mul_le (u c : Z) : 0 < c -> u / c * c <= u.
Proof. intro Hc. pose proof (Z.mul_div_le u c Hc). lia. Qed.

Lemma floor_nonneg (u c : Z) : 0 <= u -> 0 < c -> 0 <= u / c.
Proof. intros. apply Z.div_pos; lia. Qed.

(** The opening curve fee never decreases as the short amount grows. *)
Theorem open_short_curve_fee_mono_amount (st : State) (a a' p r r' : Z) :
  state_wf st = true -> 0 <= a <= a' ->
  open_short_curve_fee st a p = Ok r -> open_short_curve_fee st a' p = Ok r' ->
  r <= r'.
Proof.
  intros Hwf Ha H H'.
  pose proof (state_wf_spec st Hwf) as (Hcf & _). pose proof ONE_pos as Hone.
  apply open_short_curve_fee_ok_inv in H as (Hp & _ & ->).
  apply open_short_curve_fee_ok_inv in H' as (_ & _ & ->).
  assert (0 <= curve_fee st * (ONE - p) / ONE) by (apply floor_nonneg; nia).
  apply Z.div_le_mono; nia.
Qed.

Lemma open_short_curve_fee_mono_amount_witness :
  5 * 10 ^ 17 <= 10 ^ 18.
Proof.
  apply (open_short_curve_fee_mono_amount sample_state (1000 * 10 ^ 18) (2000 * 10 ^ 18)
           (95 * 10 ^ 16)); first [reflexivity | lia].
Defined.

(** The opening curve fee never increases as the quoted spot price rises. *)
Theorem open_short_curve_fee_antitone_price (st : State) (a p p' r r' : Z) :
  state_wf st = true -> 0 <= a -> p <= p' ->
  open_short_curve_fee st a p = Ok r -> open_short_curve_fee st a p' = Ok r' ->
  r' <= r.
Proof.
  intros Hwf Ha Hp H H'.
  pose proof (state_wf_spec st Hwf) as (Hcf & _). pose proof ONE_pos as Hone.
  apply open_short_curve_fee_ok_inv in H as (_ & _ & ->).
  apply open_short_curve_fee_ok_inv in H' as (Hp' & _ & ->).
  assert (Hx : curve_fee st * (ONE - p') / ONE <= curve_fee st * (ONE - p) / ONE)
    by (apply Z.div_le_mono; nia).
  assert (0 <= curve_fee st * (ONE - p') / ONE) by (apply floor_nonneg; nia).
  apply Z.div_le_mono; nia.
Qed.

Lemma open_short_curve_fee_antitone_price_witness :
  0 <= 5 * 10 ^ 17.
Proof.
  apply (open_short_curve_fee_antitone_price sample_state (1000 * 10 ^ 18)
           (95 * 10 ^ 16) (10 ^ 18)); first [reflexivity | lia].
Defined.

(** With a curve fee rate of at most one and a non-negative spot price,
    the opening curve fee never exceeds the short amount. *)
Theorem open_short_curve_fee_le_amount (st : State) (a p r : Z) :
  0 <= curve_fee st <= ONE -> 0 <= a -> 0 <= p ->
  open_short_curve_fee st a p = Ok r -> r <= a.
Proof.
  intros Hcf Ha Hp0 H. pose proof ONE_pos as Hone.
  apply open_short_curve_fee_ok_inv in H as (Hp & _ & ->).
  assert (Hx : curve_fee st * (ONE - p) / ONE <= ONE)
    by (apply Z.div_le_upper_bound; nia).
  apply Z.div_le_upper_bound; nia.
Qed.

Lemma open_short_curve_fee_le_amount_witness :
  5 * 10 ^ 17 <= 1000 * 10 ^ 18.
Proof.
  apply (open_short_curve_fee_le_amount sample_state (1000 * 10 ^ 18) (95 * 10 ^ 16));
    first [reflexivity | vm_compute; split; discriminate | lia].
Defined.

(** The opening curve fee rounds down: it never exceeds the exact value
    [curve_fee * (1 - spot_price) * short_amount] floored once. *)
Theorem open_short_curve_fee_rounds_down (st : State) (a p r : Z) :
  state_wf st = true -> 0 <= a ->
  open_short_curve_fee st a p = Ok r ->
  r <= curve_fee st * (ONE - p) * a / (ONE * ONE).
Proof.
  intros Hwf Ha H.
  pose proof (state_wf_spec st Hwf) as (Hcf & _). pose proof ONE_pos as Hone.
  apply open_short_curve_fee_ok_inv in H as (Hp & _ & ->).
  set (x := curve_fee st * (ONE - p) / ONE).
  assert (Hx0 : 0 <= x) by (apply floor_nonneg; nia).
  assert (Hx : x * ONE <= curve_fee st * (ONE - p)) by apply floor_mul_le, Hone.
  assert (Hr : x * a / ONE * ONE <= x * a) by apply floor_mul_le, Hone.
  apply Z.div_le_lower_bound; [nia |].
  assert (x * a * ONE <= curve_fee st * (ONE - p) * a) by nia.
  nia.
Qed.

Lemma open_short_curve_fee_rounds_down_witness :
  5 * 10 ^ 17 <= curve_fee sample_state * (ONE - 95 * 10 ^ 16) * (1000 * 10 ^ 18) / (ONE * ONE).
Proof.
  apply (open_short_curve_fee_rounds_down sample_state (1000 * 10 ^ 18) (95 * 10 ^ 16));
    [reflexivity | lia | reflexivity].
Defined.

(** The governance fee rounds down: it never exceeds the exact value
    [governance_lp_fee * curve_fee * (1 - spot_price) * short_amount]
    floored once. *)
Theorem open_short_governance_fee_rounds_down (st : State) (a p g : Z) :
  state_wf st = true -> 0 <= a ->
  open_short_governance_fee st a p = Ok g ->
  g <= governance_lp_fee st * curve_fee st * (ONE - p) * a / (ONE * ONE * ONE).
Proof.
  intros Hwf Ha H.
  pose proof (state_wf_spec st Hwf) as (Hcf & Hgov & _). pose proof ONE_pos as Hone.
  unfold open_short_governance_fee in H. apply bind_ok in H as (c & Hc & H).
  apply mul_div_down_ok_inv in H as (_ & -> & _).
  pose proof (open_short_curve_fee_rounds_down st a p c Hwf Ha Hc) as Hcb.
  apply open_short_curve_fee_ok_inv in Hc as (Hp & _ & Hc).
  set (N := curve_fee st * (ONE - p) * a) in *.
  assert (HN : 0 <= N) by (subst N; nia).
  assert (Hc0 : 0 <= c) by (rewrite Hc; apply floor_nonneg; [apply Z.mul_nonneg_nonneg;
                              [apply floor_nonneg; nia | lia] | lia]).
  assert (Hc1 : c * (ONE * ONE) <= N).
  { pose proof (floor_mul_le N (ONE * ONE) ltac:(nia)). nia. }
  assert (Hg : governance_lp_fee st * c / ONE * ONE <= governance_lp_fee st * c)
    by apply floor_mul_le, Hone.
  apply Z.div_le_lower_bound; [nia |].
  replace (governance_lp_fee st * curve_fee st * (ONE - p) * a)
    with (governance_lp_fee st * N) by (subst N; ring).
  nia.
Qed.

Lemma open_short_governance_fee_rounds_down_witness :
  5 * 10 ^ 16 <= governance_lp_fee sample_state * curve_fee sample_state
                   * (ONE - 95 * 10 ^ 16) * (1000 * 10 ^ 18) / (ONE * ONE * ONE).
Proof.
  apply (open_short_governance_fee_rounds_down sample_state (1000 * 10 ^ 18) (95 * 10 ^ 16));
    [reflexivity | lia | reflexivity].
Defined.

(** The closing curve fee rounds down: it never exceeds the exact value
    [curve_fee * (1 - spot) * bond_amount * time_remaining / vault_share_price]
    floored once. *)
Theorem close_short_curve_fee_rounds_down (st : State) (b m t r : Z) :
  state_wf st = true -> 0 <= b ->
  close_short_curve_fee st b m t = Ok r ->
  r <= curve_fee st * (ONE - get_spot_price st) * b * calculate_normalized_time_remaining st m t
       / (ONE * vault_share_price st * ONE).
Proof.
  intros Hwf Hb H.
  pose proof (state_wf_spec st Hwf) as (Hcf & _ & _ & Hvsp & _). pose proof ONE_pos as Hone.
  pose proof (calculate_normalized_time_remaining_range st m t) as Ht.
  apply close_short_curve_fee_ok_inv in H as (Hp & Hv & ->).
  set (tr := calculate_normalized_time_remaining st m t) in *.
  set (D := ONE - get_spot_price st) in *.
  set (x := curve_fee st * D / ONE).
  set (y := b * tr / vault_share_price st).
  assert (HD : 0 <= D) by (subst D; lia).
  assert (Hvp : 0 < vault_share_price st) by lia.
  assert (Hx0 : 0 <= x) by (apply floor_nonneg; nia).
  assert (Hy0 : 0 <= y) by (apply floor_nonneg; nia).
  assert (Hx : x * ONE <= curve_fee st * D) by apply floor_mul_le, Hone.
  assert (Hy : y * vault_share_price st <= b * tr) by apply floor_mul_le, Hvp.
  assert (Hr : x * y / ONE * ONE <= x * y) by apply floor_mul_le, Hone.
  assert (Hxy : x * ONE * (y * vault_share_price st) <= curve_fee st * D * (b * tr))
    by (apply Z.mul_le_mono_nonneg; nia).
  set (r := x * y / ONE).
  assert (H1 : r * ONE * (ONE * vault_share_price st) <= x * y * (ONE * vault_share_price st))
    by (apply Z.mul_le_mono_nonneg_r; nia).
  apply Z.div_le_lower_bound; [nia |].
  replace (ONE * vault_share_price st * ONE * r)
    with (r * ONE * (ONE * vault_share_price st)) by ring.
  replace (curve_fee st * D * b * tr) with (curve_fee st * D * (b * tr)) by ring.
  replace (x * y * (ONE * vault_share_price st))
    with (x * ONE * (y * vault_share_price st)) in H1 by ring.
  lia.
Qed.

Lemma close_short_curve_fee_rounds_down_witness :
  25 * 10 ^ 15 <= curve_fee sample_state * (ONE - get_spot_price sample_state) * (100 * 10 ^ 18)
                  * calculate_normalized_time_remaining sample_state 31536000 15768000
                  / (ONE * vault_share_price sample_state * ONE).
Proof.
  apply (close_short_curve_fee_rounds_down sample_state (100 * 10 ^ 18) 31536000 15768000);
    [reflexivity | lia | reflexivity].
Defined.

(** The closing flat fee rounds down: it never exceeds the exact value
    [bond_amount * (1 - time_remaining) * flat_fee / vault_share_price]
    floored once. *)
Theorem close_short_flat_fee_rounds_down (st : State) (b m t r : Z) :
  state_wf st = true -> 0 <= b ->
  close_short_flat_fee st b m t = Ok r ->
  r <= b * (ONE - calculate_normalized_time_remaining st m t) * flat_fee st
       / (vault_share_price st * ONE).
Proof.
  intros Hwf Hb H.
  pose proof (state_wf_spec st Hwf) as (_ & _ & Hff & Hvsp & _). pose proof ONE_pos as Hone.
  pose proof (calculate_normalized_time_remaining_range st m t) as Ht.
  apply close_short_flat_fee_ok_inv in H as (Hv & ->).
  set (E := ONE - calculate_normalized_time_remaining st m t) in *.
  set (y := b * E / vault_share_price st).
  assert (HE : 0 <= E) by (subst E; lia).
  assert (Hvp : 0 < vault_share_price st) by lia.
  assert (Hy0 : 0 <= y) by (apply floor_nonneg; nia).
  assert (Hy : y * vault_share_price st <= b * E) by apply floor_mul_le, Hvp.
  assert (Hr : y * flat_fee st / ONE * ONE <= y * flat_fee st) by apply floor_mul_le, Hone.
  assert (Hyf : y * vault_share_price st * flat_fee st <= b * E * flat_fee st)
    by (apply Z.mul_le_mono_nonneg_r; lia).
  apply Z.div_le_lower_bound; [nia |].
  nia.
Qed.

Lemma close_short_flat_fee_rounds_down_witness :
  25 * 10 ^ 15 <= (100 * 10 ^ 18)
                  * (ONE - calculate_normalized_time_remaining sample_state 31536000 15768000)
                  * flat_fee sample_state / (vault_share_price sample_state * ONE).
Proof.
  apply (close_short_flat_fee_rounds_down sample_state (100 * 10 ^ 18) 31536000 15768000);
    [reflexivity | lia | reflexivity].
Defined.

(** With the bond amount fixed, the closing curve fee never decreases and
    the closing flat fee never increases as the time remaining grows. *)
Theorem close_short_fees_mono_time_remaining (st : State) (b m t m' t' : Z) :
  state_wf st = true -> 0 <= b ->
  calculate_normalized_time_remaining st m t <= calculate_normalized_time_remaining st m' t' ->
  (forall r r', close_short_curve_fee st b m t = Ok r ->
                close_short_curve_fee st b m' t' = Ok r' -> r <= r')
  /\ (forall f f', close_short_flat_fee st b m t = Ok f ->
                   close_short_flat_fee st b m' t' = Ok f' -> f' <= f).
Proof.
  intros Hwf Hb Htt.
  pose proof (state_wf_spec st Hwf) as (Hcf & _ & Hff & Hvsp & _). pose proof ONE_pos as Hone.
  pose proof (calculate_normalized_time_remaining_range st m t) as Ht.
  pose proof (calculate_normalized_time_remaining_range st m' t') as Ht'.
  split; intros r r' H H'.
  - apply close_short_curve_fee_ok_inv in H as (Hp & Hv & ->).
    apply close_short_curve_fee_ok_inv in H' as (_ & _ & ->).
    assert (0 <= curve_fee st * (ONE - get_spot_price st) / ONE) by (apply floor_nonneg; nia).
    assert (b * calculate_normalized_time_remaining st m t / vault_share_price st
            <= b * calculate_normalized_time_remaining st m' t' / vault_share_price st)
      by (apply Z.div_le_mono; nia).
    apply Z.div_le_mono; nia.
  - apply close_short_flat_fee_ok_inv in H as (Hv & ->).
    apply close_short_flat_fee_ok_inv in H' as (_ & ->).
    assert (b * (ONE - calculate_normalized_time_remaining st m' t') / vault_share_price st
            <= b * (ONE - calculate_normalized_time_remaining st m t) / vault_share_price st)
      by (apply Z.div_le_mono; nia).
    apply Z.div_le_mono; nia.
Qed.

Lemma close_short_fees_mono_time_remaining_witness :
  25 * 10 ^ 15 <= 5 * 10 ^ 16.
Proof.
  apply (proj1 (close_short_fees_mono_time_remaining sample_state (100 * 10 ^ 18)
                  31536000 15768000 31536000 0 eq_refl ltac:(lia)
                  ltac:(vm_compute; discriminate)));
    vm_compute; reflexivity.
Defined.

(** With curve and flat fee rates of at most one, the two closing fees
    together never exceed the bond amount converted to shares,
    [bond_amount * 1e18 / vault_share_price] rounded down. *)
Theorem close_short_fees_le_shares (st : State) (b m t r f : Z) :
  state_wf st = true -> 0 <= b ->
  curve_fee st <= ONE -> flat_fee st <= ONE ->
  close_short_curve_fee st b m t = Ok r ->
  close_short_flat_fee st b m t = Ok f ->
  r + f <= b * ONE / vault_share_price st.
Proof.
  intros Hwf Hb Hcf1 Hff1 H H'.
  pose proof (state_wf_spec st Hwf) as (Hcf & _ & Hff & Hvsp & Hsp & _).
  pose proof ONE_pos as Hone.
  pose proof (calculate_normalized_time_remaining_range st m t) as Ht.
  apply close_short_curve_fee_ok_inv in H as (Hp & Hv & ->).
  apply close_short_flat_fee_ok_inv in H' as (_ & ->).
  unfold get_spot_price in *.
  set (tr := calculate_normalized_time_remaining st m t) in *.
  set (x := curve_fee st * (ONE - spot_price st) / ONE).
  set (y := b * tr / vault_share_price st).
  set (y2 := b * (ONE - tr) / vault_share_price st).
  assert (Hvp : 0 < vault_share_price st) by lia.
  assert (Hx : x <= ONE) by (apply Z.div_le_upper_bound; nia).
  assert (Hx0 : 0 <= x) by (apply floor_nonneg; nia).
  assert (Hy0 : 0 <= y) by (apply floor_nonneg; nia).
  assert (Hy20 : 0 <= y2) by (apply floor_nonneg; nia).
  assert (Hy : y * vault_share_price st <= b * tr) by apply floor_mul_le, Hvp.
  assert (Hy2 : y2 * vault_share_price st <= b * (ONE - tr)) by apply floor_mul_le, Hvp.
  assert (Hr : x * y / ONE <= y) by (apply Z.div_le_upper_bound; nia).
  assert (Hf : y2 * flat_fee st / ONE <= y2) by (apply Z.div_le_upper_bound; nia).
  assert (Hs : y + y2 <= b * ONE / vault_share_price st)
    by (apply Z.div_le_lower_bound; nia).
  lia.
Qed.

Lemma close_short_fees_le_shares_witness :
  25 * 10 ^ 15 + 25 * 10 ^ 15 <= 100 * 10 ^ 18 * ONE / vault_share_price sample_state.
Proof.
  apply (close_short_fees_le_shares sample_state (100 * 10 ^ 18) 31536000 15768000);
    first [reflexivity | lia | vm_compute; discriminate].
Defined.

(** Each fee vanishes with its rate: the curve fees (opening, governance,
    closing) are 0 when the curve fee rate is 0 or the price is at par
    (1e18), and the closing flat fee is 0 when the flat fee rate is 0,
    provided the steps before the last product succeed. *)
Theorem fees_zero_at_zero_rate (st : State) (a p b m t : Z) :
  ((curve_fee st = 0 \/ p = ONE) -> p <= ONE ->
   open_short_curve_fee st a p = Ok 0 /\ open_short_governance_fee st a p = Ok 0)
  /\ ((curve_fee st = 0 \/ get_spot_price st = ONE) -> get_spot_price st <= ONE ->
      vault_share_price st <> 0 ->
      b * calculate_normalized_time_remaining st m t / vault_share_price st < U256_LIMIT ->
      close_short_curve_fee st b m t = Ok 0)
  /\ (flat_fee st = 0 -> vault_share_price st <> 0 ->
      calculate_normalized_time_remaining st m t <= ONE ->
      b * (ONE - calculate_normalized_time_remaining st m t) / vault_share_price st
        < U256_LIMIT ->
      close_short_flat_fee st b m t = Ok 0).
Proof.
  assert (Hz : forall c q, (c = 0 \/ q = ONE) -> mul c (ONE - q) = Ok 0).
  { intros c q [-> | ->]; [apply mul_zero_l | rewrite Z.sub_diag; apply mul_zero_r]. }
  split; [| split].
  - intros H0 Hp.
    assert (Hc : open_short_curve_fee st a p = Ok 0).
    { unfold open_short_curve_fee. rewrite (sub_ok _ _ Hp). cbn [bind].
      rewrite (Hz _ _ H0). cbn [bind]. apply mul_zero_l. }
    split; [exact Hc |].
    unfold open_short_governance_fee. rewrite Hc. cbn [bind]. apply mul_zero_r.
  - intros H0 Hp Hv Hy. unfold close_short_curve_fee.
    rewrite (sub_ok _ _ Hp). cbn [bind]. rewrite (Hz _ _ H0). cbn [bind].
    rewrite (mul_div_down_ok _ _ _ Hv Hy). cbn [bind]. apply mul_zero_l.
  - intros H0 Hv Ht Hy. unfold close_short_flat_fee.
    rewrite (sub_ok _ _ Ht). cbn [bind].
    rewrite (mul_div_down_ok _ _ _ Hv Hy). cbn [bind]. rewrite H0. apply mul_zero_r.
Qed.

Lemma fees_zero_at_zero_rate_witness :
  open_short_curve_fee sample_state (1000 * 10 ^ 18) ONE = Ok 0
  /\ close_short_flat_fee {| curve_fee := 10 ^ 16; governance_lp_fee := 10 ^ 17;
                             flat_fee := 0; vault_share_price := 10 ^ 18;
                             spot_price := 95 * 10 ^ 16; position_duration := 31536000 |}
       (100 * 10 ^ 18) 31536000 15768000 = Ok 0.
Proof.
  split.
  - apply (proj1 (proj1 (fees_zero_at_zero_rate sample_state (1000 * 10 ^ 18) ONE 0 0 0)
                   (or_intror eq_refl) ltac:(lia))).
  - apply (proj2 (proj2 (fees_zero_at_zero_rate
                   {| curve_fee := 10 ^ 16; governance_lp_fee := 10 ^ 17;
                      flat_fee := 0; vault_share_price := 10 ^ 18;
                      spot_price := 95 * 10 ^ 16; position_duration := 31536000 |}
                   0 0 (100 * 10 ^ 18) 31536000 15768000)));
      first [reflexivity | vm_compute; first [reflexivity | discriminate]].
Defined.

(** The governance fee of opening a short never decreases as the short
    amount grows. *)
Theorem open_short_governance_fee_mono_amount (st : State) (a a' p g g' : Z) :
  state_wf st = true -> 0 <= a <= a' ->
  open_short_governance_fee st a p = Ok g -> open_short_governance_fee st a' p = Ok g' ->
  g <= g'.
Proof.
  intros Hwf Ha H H'.
  pose proof (state_wf_spec st Hwf) as (Hcf & Hgov & _). pose proof ONE_pos as Hone.
  unfold open_short_governance_fee in H, H'.
  apply bind_ok in H as (c & Hc & H). apply bind_ok in H' as (c' & Hc' & H').
  apply mul_div_down_ok_inv in H as (_ & -> & _).
  apply mul_div_down_ok_inv in H' as (_ & -> & _).
  apply open_short_curve_fee_ok_inv in Hc as (Hp & _ & ->).
  apply open_short_curve_fee_ok_inv in Hc' as (_ & _ & ->).
  assert (0 <= curve_fee st * (ONE - p) / ONE) by (apply floor_nonneg; nia).
  assert (curve_fee st * (ONE - p) / ONE * a / ONE <= curve_fee st * (ONE - p) / ONE * a' / ONE)
    by (apply Z.div_le_mono; nia).
  apply Z.div_le_mono; [lia | apply Z.mul_le_mono_nonneg_l; lia].
Qed.

Lemma open_short_governance_fee_mono_amount_witness :
  5 * 10 ^ 16 <= 10 ^ 17.
Proof.
  apply (open_short_governance_fee_mono_amount sample_state (1000 * 10 ^ 18) (2000 * 10 ^ 18)
           (95 * 10 ^ 16)); first [reflexivity | lia].
Defined.
